(** * The deploy form's submit handler (src/main.js)

    A shallow embedding of the single [submit] listener of the page script.
    The page's elements are a record of the properties the script reads and
    writes, the network is an oracle answering the one [fetch] call, and the
    listener is a computation in a state-and-exception monad whose
    [try_catch_finally] follows the JavaScript statement of that name.

    Strings are Rocq strings: sequences of code units below 256.  What an
    engine is free to choose (the rendering of a number, the text of the
    [TypeError]s it raises) is a parameter, the class [Engine]. *)

From Stdlib Require Import String Ascii List NArith ZArith Bool Lia DecimalString.
Import ListNotations.
Open Scope string_scope.
Set Warnings "-register-all".

(** ** Text helpers *)

Definition dquote : string := String "034"%char EmptyString.
Definition newline : string := String "010"%char EmptyString.
Definition backslash : string := String "092"%char EmptyString.

Fixpoint spaces (n : nat) : string :=
  match n with
  | O => EmptyString
  | S k => String " "%char (spaces k)
  end.

(** [substring_of p s]: [p] occurs in [s] as a contiguous run of characters. *)
Definition substring_of (p s : string) : Prop :=
  exists before after, s = before ++ p ++ after.

(** Rendering of a non-negative integer in a template literal: decimal
    digits, [0] as the single digit. *)
Definition N_to_string (n : N) : string :=
  NilZero.string_of_uint (N.to_uint n).

(** A string is truthy exactly when it is not empty. *)
Definition truthy (s : string) : bool :=
  match s with
  | EmptyString => false
  | String _ _ => true
  end.

(** ** Thrown values and completions *)

Record Error : Type := mkError { err_name : string; message : string }.

Definition new_Error (msg : string) : Error := mkError "Error" msg.
Definition TypeError (msg : string) : Error := mkError "TypeError" msg.

Inductive Completion (A : Type) : Type :=
| Normal (a : A)
| Throw (e : Error).
Arguments Normal {A} a.
Arguments Throw {A} e.

(** ** What the engine chooses *)

Class Engine : Type := {
  Num : Type;
  number_to_string : Num -> string;
  null_read_message : string -> string;
  undefined_read_message : string -> string;
  not_primitive_message : string
}.

(** An engine whose numbers are the integers, with the message texts of V8. *)
Definition Z_to_string (z : Z) : string :=
  NilZero.string_of_int (Z.to_int z).

Definition integer_engine : Engine := {|
  Num := Z;
  number_to_string := Z_to_string;
  null_read_message := fun k =>
    "Cannot read properties of null (reading '" ++ k ++ "')";
  undefined_read_message := fun k =>
    "Cannot read properties of undefined (reading '" ++ k ++ "')";
  not_primitive_message := "Cannot convert object to primitive value"
|}.

(** ** Values *)

Section Values.
Context {E : Engine}.

(** The values a parsed JSON body is made of, and [undefined], which a
    property read gives for an absent property.  [VObject props] lists the
    own properties of an object. *)
Inductive Value : Type :=
| VUndefined
| VNull
| VBool (b : bool)
| VNumber (n : Num)
| VString (s : string)
| VArray (elems : list Value)
| VObject (props : list (string * Value)).

Fixpoint own_property (k : string) (props : list (string * Value)) : option Value :=
  match props with
  | [] => None
  | (k', v) :: rest => if String.eqb k k' then Some v else own_property k rest
  end.

(** [v.k] for a key [k] that no built-in prototype defines (the script reads
    [slug] and [url] only): reading from [null] or [undefined] throws, an own
    property of an object is returned, everything else is [undefined]. *)
Definition Get (v : Value) (k : string) : Completion Value :=
  match v with
  | VUndefined => Throw (TypeError (undefined_read_message k))
  | VNull => Throw (TypeError (null_read_message k))
  | VObject props =>
      match own_property k props with
      | Some x => Normal x
      | None => Normal VUndefined
      end
  | _ => Normal VUndefined
  end.

(** [v] lacks the field [k]: no own property of that name. *)
Definition lacks (v : Value) (k : string) : Prop :=
  match v with
  | VObject props => own_property k props = None
  | _ => True
  end.

(** The conversion a template literal applies to [${v}].  An array is its
    elements joined by commas, [null] and [undefined] elements giving the
    empty string.  An object made by the JSON parser has no callable
    [toString] of its own: without an own [toString] property the inherited
    one answers [[object Object]], with one the conversion throws. *)
Fixpoint ToString (v : Value) : Completion string :=
  match v with
  | VUndefined => Normal "undefined"
  | VNull => Normal "null"
  | VBool true => Normal "true"
  | VBool false => Normal "false"
  | VNumber n => Normal (number_to_string n)
  | VString s => Normal s
  | VArray elems =>
      (fix join (l : list Value) : Completion string :=
         match l with
         | [] => Normal EmptyString
         | x :: rest =>
             match (match x with
                    | VUndefined | VNull => Normal EmptyString
                    | _ => ToString x
                    end) with
             | Throw e => Throw e
             | Normal s =>
                 match rest with
                 | [] => Normal s
                 | _ :: _ =>
                     match join rest with
                     | Throw e => Throw e
                     | Normal t => Normal (s ++ "," ++ t)
                     end
                 end
             end
         end) elems
  | VObject props =>
      match own_property "toString" props with
      | Some _ => Throw (TypeError not_primitive_message)
      | None => Normal "[object Object]"
      end
  end.

(** What the hole [${data.k}] of a template literal contributes: the
    property is read, then converted. *)
Definition interpolate (data : Value) (k : string) : Completion string :=
  match Get data k with
  | Normal v => ToString v
  | Throw e => Throw e
  end.

End Values.

(** ** JSON.stringify, for the one shape the script serialises *)

(** The lower-case hexadecimal digit of a number below sixteen. *)
Definition hex_digit (n : N) : ascii :=
  ascii_of_N (if (n <? 10)%N then 48 + n else 87 + n)%N.

(** One code unit inside a JSON string literal. *)
Definition quote_char (c : ascii) : string :=
  match N_of_ascii c with
  | 8 => "\b"
  | 9 => "\t"
  | 10 => "\n"
  | 12 => "\f"
  | 13 => "\r"
  | 34 => backslash ++ dquote
  | 92 => backslash ++ backslash
  | n =>
      if (n <? 32)%N
      then "\u00" ++ String (hex_digit (n / 16)) (String (hex_digit (n mod 16)) EmptyString)
      else String c EmptyString
  end%N.

Fixpoint quote_chars (s : string) : string :=
  match s with
  | EmptyString => EmptyString
  | String c rest => quote_char c ++ quote_chars rest
  end.

Definition QuoteJSONString (s : string) : string :=
  dquote ++ quote_chars s ++ dquote.

Fixpoint stringify_members (props : list (string * string)) : string :=
  match props with
  | [] => EmptyString
  | [(k, v)] => QuoteJSONString k ++ ":" ++ QuoteJSONString v
  | (k, v) :: rest =>
      QuoteJSONString k ++ ":" ++ QuoteJSONString v ++ "," ++ stringify_members rest
  end.

(** [JSON.stringify] of an object all of whose property values are strings. *)
Definition JSON_stringify (props : list (string * string)) : string :=
  "{" ++ stringify_members props ++ "}".

(** Reading a JSON string literal back, as the receiving end does: the
    characters up to the closing quote, escapes undone.  The result is the
    string and what follows the literal. *)
Definition hex_value (c : ascii) : option N :=
  let n := N_of_ascii c in
  if ((48 <=? n) && (n <=? 57))%N then Some (n - 48)%N
  else if ((97 <=? n) && (n <=? 102))%N then Some (n - 87)%N
  else if ((65 <=? n) && (n <=? 70))%N then Some (n - 55)%N
  else None.

Definition hex4 (h1 h2 h3 h4 : ascii) : option ascii :=
  match hex_value h1, hex_value h2, hex_value h3, hex_value h4 with
  | Some a, Some b, Some c, Some d =>
      let n := (((a * 16 + b) * 16 + c) * 16 + d)%N in
      if (n <? 256)%N then Some (ascii_of_N n) else None
  | _, _, _, _ => None
  end.

Definition simple_escape (e : ascii) : option ascii :=
  match e with
  | "b" => Some "008" | "t" => Some "009" | "n" => Some "010"
  | "f" => Some "012" | "r" => Some "013"
  | "034" => Some "034" | "092" => Some "092" | "/" => Some "/"
  | _ => None
  end%char.

Definition prepend (c : ascii) (r : option (string * string)) : option (string * string) :=
  match r with
  | Some (s, rest) => Some (String c s, rest)
  | None => None
  end.

Fixpoint unquote_chars (s : string) : option (string * string) :=
  match s with
  | EmptyString => None
  | String c rest =>
      if Ascii.eqb c "034" then Some (EmptyString, rest)
      else if Ascii.eqb c "092" then
        match rest with
        | EmptyString => None
        | String e rest1 =>
            match simple_escape e with
            | Some d => prepend d (unquote_chars rest1)
            | None =>
                if Ascii.eqb e "u" then
                  match rest1 with
                  | String h1 (String h2 (String h3 (String h4 rest5))) =>
                      match hex4 h1 h2 h3 h4 with
                      | Some d => prepend d (unquote_chars rest5)
                      | None => None
                      end
                  | _ => None
                  end
                else None
            end
        end
      else if (N_of_ascii c <? 32)%N then None
      else prepend c (unquote_chars rest)
  end.

Definition read_literal (s : string) : option (string * string) :=
  match s with
  | String c rest => if Ascii.eqb c "034" then unquote_chars rest else None
  | EmptyString => None
  end.

Definition expect (c : ascii) (s : string) : option string :=
  match s with
  | String c' rest => if Ascii.eqb c c' then Some rest else None
  | EmptyString => None
  end.

(** One member [k:v] with a string value, and what follows it. *)
Definition read_member (s : string) : option ((string * string) * string) :=
  match read_literal s with
  | Some (k, s1) =>
      match expect ":" s1 with
      | Some s2 =>
          match read_literal s2 with
          | Some (v, s3) => Some ((k, v), s3)
          | None => None
          end
      | None => None
      end
  | None => None
  end.

(** An object text of exactly two members with string values. *)
Definition read_two_members (s : string) : option ((string * string) * (string * string)) :=
  match expect "{" s with
  | Some s1 =>
      match read_member s1 with
      | Some (m1, s2) =>
          match expect "," s2 with
          | Some s3 =>
              match read_member s3 with
              | Some (m2, s4) =>
                  match s4 with
                  | String "}" EmptyString => Some (m1, m2)
                  | _ => None
                  end
              | None => None
              end
          | None => None
          end
      | None => None
      end
  | None => None
  end.

(** ** The page and the network *)

Record Request : Type := mkRequest {
  resource : string;
  method : string;
  headers : list (string * string);
  body : string
}.

(** A response: its status, and what awaiting [json()] and [text()] gives. *)
Record Response {E : Engine} : Type := mkResponse {
  status : N;
  json : Completion Value;
  text : Completion string
}.
Arguments mkResponse {E} status json text.

(** The [ok] getter of a response: the status is in the range 200 to 299. *)
Definition ok {E : Engine} (response : Response) : bool :=
  ((200 <=? status response) && (status response <=? 299))%N.

(** What [fetch] settles to for a request: a response, or a rejection. *)
Definition Network {E : Engine} : Type := Request -> Completion Response.

(** The properties of the page the listener reads or writes, the flag of the
    event, the requests sent so far and the errors logged so far. *)
Record World : Type := mkWorld {
  repoUrlInput_value : string;
  basePathInput_value : string;
  button_disabled : bool;
  button_textContent : string;
  loading_style_display : string;
  result_style_display : string;
  result_innerHTML : string;
  result_className : string;
  defaultPrevented : bool;
  fetched : list Request;
  console : list Error
}.

Definition with_button_disabled (b : bool) (w : World) : World :=
  mkWorld (repoUrlInput_value w) (basePathInput_value w) b
    (button_textContent w) (loading_style_display w) (result_style_display w)
    (result_innerHTML w) (result_className w) (defaultPrevented w)
    (fetched w) (console w).

Definition with_button_textContent (s : string) (w : World) : World :=
  mkWorld (repoUrlInput_value w) (basePathInput_value w) (button_disabled w)
    s (loading_style_display w) (result_style_display w)
    (result_innerHTML w) (result_className w) (defaultPrevented w)
    (fetched w) (console w).

Definition with_loading_style_display (s : string) (w : World) : World :=
  mkWorld (repoUrlInput_value w) (basePathInput_value w) (button_disabled w)
    (button_textContent w) s (result_style_display w)
    (result_innerHTML w) (result_className w) (defaultPrevented w)
    (fetched w) (console w).

Definition with_result_style_display (s : string) (w : World) : World :=
  mkWorld (repoUrlInput_value w) (basePathInput_value w) (button_disabled w)
    (button_textContent w) (loading_style_display w) s
    (result_innerHTML w) (result_className w) (defaultPrevented w)
    (fetched w) (console w).

Definition with_result_innerHTML (s : string) (w : World) : World :=
  mkWorld (repoUrlInput_value w) (basePathInput_value w) (button_disabled w)
    (button_textContent w) (loading_style_display w) (result_style_display w)
    s (result_className w) (defaultPrevented w)
    (fetched w) (console w).

Definition with_result_className (s : string) (w : World) : World :=
  mkWorld (repoUrlInput_value w) (basePathInput_value w) (button_disabled w)
    (button_textContent w) (loading_style_display w) (result_style_display w)
    (result_innerHTML w) s (defaultPrevented w)
    (fetched w) (console w).

Definition with_defaultPrevented (b : bool) (w : World) : World :=
  mkWorld (repoUrlInput_value w) (basePathInput_value w) (button_disabled w)
    (button_textContent w) (loading_style_display w) (result_style_display w)
    (result_innerHTML w) (result_className w) b
    (fetched w) (console w).

Definition with_fetched (l : list Request) (w : World) : World :=
  mkWorld (repoUrlInput_value w) (basePathInput_value w) (button_disabled w)
    (button_textContent w) (loading_style_display w) (result_style_display w)
    (result_innerHTML w) (result_className w) (defaultPrevented w)
    l (console w).

Definition with_console (l : list Error) (w : World) : World :=
  mkWorld (repoUrlInput_value w) (basePathInput_value w) (button_disabled w)
    (button_textContent w) (loading_style_display w) (result_style_display w)
    (result_innerHTML w) (result_className w) (defaultPrevented w)
    (fetched w) l.

(** The tokens of a [class] attribute, separated by ASCII whitespace, and
    the test [classList.contains]. *)
Definition is_space (c : ascii) : bool :=
  match N_of_ascii c with
  | 9 | 10 | 12 | 13 | 32 => true
  | _ => false
  end%N.

Fixpoint class_tokens_from (cur : string) (s : string) : list string :=
  match s with
  | EmptyString => if truthy cur then [cur] else []
  | String c rest =>
      if is_space c
      then (if truthy cur then cur :: class_tokens_from EmptyString rest
            else class_tokens_from EmptyString rest)
      else class_tokens_from (cur ++ String c EmptyString) rest
  end.

Definition has_class (name className : string) : bool :=
  existsb (String.eqb name) (class_tokens_from EmptyString className).

(** ** Computations: state and exceptions *)

Definition M (A : Type) : Type := World -> Completion A * World.

Definition ret {A : Type} (a : A) : M A := fun w => (Normal a, w).

Definition bind {A B : Type} (c : M A) (k : A -> M B) : M B :=
  fun w =>
    match c w with
    | (Normal a, w') => k a w'
    | (Throw e, w') => (Throw e, w')
    end.

Definition throw {A : Type} (e : Error) : M A := fun w => (Throw e, w).

(** Awaiting a promise that has settled: its value, or its rejection thrown. *)
Definition await {A : Type} (settled : Completion A) : M A := fun w => (settled, w).

(** An expression that reads no state: its value, or what it throws. *)
Definition eval {A : Type} (c : Completion A) : M A := fun w => (c, w).

Definition reads {A : Type} (f : World -> A) : M A := fun w => (Normal (f w), w).

Definition writes (f : World -> World) : M unit := fun w => (Normal tt, f w).

(** [try { body } catch (err) { handler err } finally { final }]: the catch
    block runs when the body throws, the finally block runs in every case,
    and a finally block that completes normally leaves the completion of the
    try or catch block in place. *)
Definition try_catch_finally {A : Type}
    (body : M A) (handler : Error -> M A) (final : M unit) : M A :=
  fun w =>
    let '(c, w1) :=
      match body w with
      | (Throw err, w') => handler err w'
      | (Normal a, w') => (Normal a, w')
      end in
    match final w1 with
    | (Throw e, w2) => (Throw e, w2)
    | (Normal _, w2) => (c, w2)
    end.

Declare Scope js_scope.
Delimit Scope js_scope with js.
Notation "x <- c ;; k" := (bind c (fun x => k))
  (at level 61, c at next level, right associativity) : js_scope.
Notation "c ;; k" := (bind c (fun _ => k))
  (at level 61, right associativity) : js_scope.
Open Scope js_scope.

(** ** The listener *)

Section Listener.
Context {E : Engine}.
Variable net : Network.

(** [fetch(resource, init)]: the request goes out, the network answers. *)
Definition fetch (request : Request) : M Response :=
  fun w => (net request, with_fetched (fetched w ++ [request]) w).

Definition console_error (err : Error) : M unit :=
  writes (fun w => with_console (console w ++ [err]) w).

(** The template literal of the success branch, its two holes filled. *)
Definition success_html (slug url : string) : string :=
  newline ++
  spaces 24 ++ "<strong>Success!</strong>" ++ newline ++
  spaces 24 ++ "<p>Site ID: <strong>" ++ slug ++ "</strong></p>" ++ newline ++
  spaces 24 ++ "<a href=" ++ dquote ++ url ++ dquote ++ " target=" ++ dquote
    ++ "_blank" ++ dquote ++ " id=" ++ dquote ++ "result-url" ++ dquote ++ ">"
    ++ newline ++
  spaces 28 ++ "Go to Site" ++ newline ++
  spaces 24 ++ "</a>" ++ newline ++
  spaces 20.

Definition error_html (msg : string) : string :=
  "<strong>Error:</strong> " ++ msg.

Definition deploy_request (url base_path : string) : Request :=
  {| resource := "/api/deploy";
     method := "POST";
     headers := [("Content-Type", "application/json")];
     body := JSON_stringify [("url", url); ("base_path", base_path)] |}.

(** The body of the [try] block. *)
Definition request_phase (url base_path : string) : M unit :=
  response <- fetch (deploy_request url base_path) ;;
  if ok response then
    data <- await (json response) ;;
    writes (with_result_className "success") ;;
    slug_text <- eval (interpolate data "slug") ;;
    site_text <- eval (interpolate data "url") ;;
    writes (with_result_innerHTML (success_html slug_text site_text))
  else
    body_text <- await (text response) ;;
    let errorText := if truthy body_text then body_text else "Deployment failed." in
    throw (new_Error
             ("Server error: " ++ N_to_string (status response) ++ " " ++ errorText)).

Definition catch_block (err : Error) : M unit :=
  writes (with_result_className "error") ;;
  writes (with_result_innerHTML (error_html (message err))) ;;
  console_error err.

Definition finally_block : M unit :=
  writes (with_button_disabled false) ;;
  writes (with_button_textContent "Deploy") ;;
  writes (with_loading_style_display "none") ;;
  writes (with_result_style_display "block").

Definition start_phase : M unit :=
  writes (with_button_disabled true) ;;
  writes (with_button_textContent "Deploying...") ;;
  writes (with_loading_style_display "block") ;;
  writes (with_result_style_display "none") ;;
  writes (with_result_innerHTML EmptyString) ;;
  writes (with_result_className EmptyString).

Definition submit_listener : M unit :=
  writes (with_defaultPrevented true) ;;
  url <- reads repoUrlInput_value ;;
  input <- reads basePathInput_value ;;
  let base_path := if truthy input then input else "/" in
  start_phase ;;
  try_catch_finally (request_phase url base_path) catch_block finally_block.

(** The value of [base_path] the listener computes from the page, the
    request it then passes to [fetch], and the page as the [try] block
    finds it. *)
Definition transmitted_base_path (w : World) : string :=
  if truthy (basePathInput_value w) then basePathInput_value w else "/".

Definition sent_request (w : World) : Request :=
  deploy_request (repoUrlInput_value w) (transmitted_base_path w).

Definition at_request (w : World) : World :=
  snd (start_phase (with_defaultPrevented true w)).

(** The [try] block of a submission from [w] throws [err]. *)
Definition raises (w : World) (err : Error) : Prop :=
  exists w1,
    request_phase (repoUrlInput_value w) (transmitted_base_path w) (at_request w)
    = (Throw err, w1).

(** [s] is a string the server controls and the listener puts on the page
    for a submission from [w]: the [slug] or the [url] of a success payload,
    or the body text of a response that is not a success. *)
Inductive server_string (w : World) (s : string) : Prop :=
| server_slug (r : Response) (data : Value) (site : string)
    (Hnet : net (sent_request w) = Normal r) (Hok : ok r = true)
    (Hjson : json r = Normal data)
    (Hslug : Get data "slug" = Normal (VString s))
    (Hurl : interpolate data "url" = Normal site)
| server_url (r : Response) (data : Value) (slug : string)
    (Hnet : net (sent_request w) = Normal r) (Hok : ok r = true)
    (Hjson : json r = Normal data)
    (Hslug : interpolate data "slug" = Normal slug)
    (Hurl : Get data "url" = Normal (VString s))
| server_body_text (r : Response)
    (Hnet : net (sent_request w) = Normal r) (Hok : ok r = false)
    (Htext : text r = Normal s).

End Listener.

(** ** The element handles of the script

    The script starts by looking up six elements by id and keeps what it
    finds in constants; it then registers the listener on the form.  A lookup
    of an id the document does not have gives [null], and reading or writing
    a property of [null] throws.  A handle is modelled by whether the element
    was found; the properties of the elements stay in [World]. *)

(** The ids of the elements of the document. *)
Definition Document : Type := list string.

Definition getElementById (document : Document) (id : string) : bool :=
  existsb (String.eqb id) document.

Section Handles.
Context {E : Engine}.
(** The message of the [TypeError] for writing a property of [null]. *)
Variable null_write_message : string -> string.
Variable document : Document.
Variable net : Network.

Definition form : bool := getElementById document "deploy-form".
Definition button : bool := getElementById document "deploy-button".
Definition loading : bool := getElementById document "loading".
Definition result : bool := getElementById document "result".
Definition repoUrlInput : bool := getElementById document "repo-url".
Definition basePathInput : bool := getElementById document "base-path".

(** [handle.prop] read, [handle.prop = v] written, and [handle.style.display
    = v], where it is the read of [style] that throws. *)
Definition get_of {A : Type} (handle : bool) (prop : string) (f : World -> A) : M A :=
  if handle then reads f else throw (TypeError (null_read_message prop)).

Definition set_of (handle : bool) (prop : string) (f : World -> World) : M unit :=
  if handle then writes f else throw (TypeError (null_write_message prop)).

Definition set_style_of (handle : bool) (f : World -> World) : M unit :=
  if handle then writes f else throw (TypeError (null_read_message "style")).

Definition handles_start_phase : M unit :=
  set_of button "disabled" (with_button_disabled true) ;;
  set_of button "textContent" (with_button_textContent "Deploying...") ;;
  set_style_of loading (with_loading_style_display "block") ;;
  set_style_of result (with_result_style_display "none") ;;
  set_of result "innerHTML" (with_result_innerHTML EmptyString) ;;
  set_of result "className" (with_result_className EmptyString).

Definition handles_request_phase (url base_path : string) : M unit :=
  response <- fetch net (deploy_request url base_path) ;;
  if ok response then
    data <- await (json response) ;;
    set_of result "className" (with_result_className "success") ;;
    slug_text <- eval (interpolate data "slug") ;;
    site_text <- eval (interpolate data "url") ;;
    set_of result "innerHTML"
      (with_result_innerHTML (success_html slug_text site_text))
  else
    body_text <- await (text response) ;;
    let errorText := if truthy body_text then body_text else "Deployment failed." in
    throw (new_Error
             ("Server error: " ++ N_to_string (status response) ++ " " ++ errorText)).

Definition handles_catch_block (err : Error) : M unit :=
  set_of result "className" (with_result_className "error") ;;
  set_of result "innerHTML" (with_result_innerHTML (error_html (message err))) ;;
  console_error err.

Definition handles_finally_block : M unit :=
  set_of button "disabled" (with_button_disabled false) ;;
  set_of button "textContent" (with_button_textContent "Deploy") ;;
  set_style_of loading (with_loading_style_display "none") ;;
  set_style_of result (with_result_style_display "block").

Definition handles_submit_listener : M unit :=
  writes (with_defaultPrevented true) ;;
  url <- get_of repoUrlInput "value" repoUrlInput_value ;;
  input <- get_of basePathInput "value" basePathInput_value ;;
  let base_path := if truthy input then input else "/" in
  handles_start_phase ;;
  try_catch_finally (handles_request_phase url base_path)
    handles_catch_block handles_finally_block.

(** The script as a whole: the listener it registers, or the [TypeError] of
    calling [addEventListener] on a form that was not found. *)
Definition script : Completion (M unit) :=
  if form then Normal handles_submit_listener
  else Throw (TypeError (null_read_message "addEventListener")).

(** The five elements the listener touches were all found. *)
Definition all_found : bool :=
  repoUrlInput && basePathInput && button && loading && result.

End Handles.

(** A parsed body that is a boolean, a number, a string or an array: not
    [null], and without members to read. *)
Definition memberless {E : Engine} (v : Value) : Prop :=
  match v with
  | VBool _ | VNumber _ | VString _ | VArray _ => True
  | _ => False
  end.

(** The page without its two logs. *)
Definition without_logs (w : World) : World :=
  with_console [] (with_fetched [] w).

(** ** Sample pages and networks *)

(** The page at rest, with the two inputs filled in. *)
Definition idle_page (url base_path : string) : World :=
  mkWorld url base_path false "Deploy" "none" "none" EmptyString EmptyString
    false [] [].

(** The same page with the button disabled before the submission. *)
Definition disabled_page : World :=
  with_button_disabled true (idle_page "https://example.com/repo.git" "/docs").

(** The same page with another label on the button. *)
Definition launch_page : World :=
  with_button_textContent "Launch" (idle_page "https://example.com/repo.git" "/docs").

#[local] Existing Instance integer_engine.

(** A network that answers every request with the same response. *)
Definition answers (r : Response) : Network := fun _ => Normal r.

(** A network on which every request fails. *)
Definition unreachable (e : Error) : Network := fun _ => Throw e.

Definition failed_to_fetch : Error := TypeError "Failed to fetch".

Definition deployed : Response :=
  mkResponse 200
    (Normal (VObject [("slug", VString "abc123");
                      ("url", VString "https://abc123.example.com")]))
    (Throw (TypeError "body stream already read")).

Definition internal_failure : Response :=
  mkResponse 500 (Throw (mkError "SyntaxError" "Unexpected token i"))
    (Normal "internal failure").

Definition empty_failure : Response :=
  mkResponse 500 (Throw (mkError "SyntaxError" "Unexpected end of JSON input"))
    (Normal EmptyString).

Definition not_json : Response :=
  mkResponse 200 (Throw (mkError "SyntaxError" "Unexpected token < in JSON"))
    (Normal "<html></html>").

Definition null_body : Response :=
  mkResponse 200 (Normal VNull) (Normal "null").

Definition only_slug : Response :=
  mkResponse 201 (Normal (VObject [("slug", VString "abc123")]))
    (Normal "{}").

Definition empty_object : Response :=
  mkResponse 200 (Normal (VObject [])) (Normal "{}").

Definition opaque_url : Response :=
  mkResponse 200
    (Normal (VObject [("url", VObject [("toString", VNumber 1%Z)])]))
    (Normal "{}").

Definition slug_and_opaque_url : Response :=
  mkResponse 200
    (Normal (VObject [("slug", VString "abc123");
                      ("url", VObject [("toString", VNumber 1%Z)])]))
    (Normal "{}").

Definition markup : Response :=
  mkResponse 200
    (Normal (VObject [("slug", VString "<img src=x onerror=alert(1)>");
                      ("url", VString "javascript:alert(1)")]))
    (Normal "{}").

Definition v8_null_write_message (prop : string) : string :=
  "Cannot set properties of null (setting '" ++ prop ++ "')".

(** The ids of the deploy page, the same page without its loading
    indicator, and without its base-path input. *)
Definition deploy_document : Document :=
  ["deploy-form"; "deploy-button"; "loading"; "result"; "repo-url"; "base-path"].

Definition no_loading_document : Document :=
  ["deploy-form"; "deploy-button"; "result"; "repo-url"; "base-path"].

Definition no_base_path_document : Document :=
  ["deploy-form"; "deploy-button"; "loading"; "result"; "repo-url"].

(** A page showing the result of an earlier deployment. *)
Definition stale_page : World :=
  mkWorld "https://example.com/repo.git" "/docs" false "Deploy" "none" "block"
    (success_html "old" "https://old.example.com") "success" true [] [].

Definition fresh_page : World := idle_page "https://example.com/repo.git" "/docs".

(** A 502 response whose body cannot be read. *)
Definition unreadable_failure : Response :=
  mkResponse 502 (Throw (mkError "SyntaxError" "Unexpected end of JSON input"))
    (Throw (TypeError "network error")).

(** The response [deployed] with further members, read as text as well. *)
Definition deployed_verbose : Response :=
  mkResponse 200
    (Normal (VObject [("id", VNumber 7%Z);
                      ("slug", VString "abc123");
                      ("url", VString "https://abc123.example.com");
                      ("ok", VBool true)]))
    (Normal "ignored").

(** A 200 response whose body is a JSON string. *)
Definition string_body : Response :=
  mkResponse 200 (Normal (VString "deployed")) (Normal "deployed").

(** A network that answers only requests for [/api/deploy]. *)
Definition deploy_only : Network :=
  fun request =>
    if String.eqb (resource request) "/api/deploy" then Normal deployed
    else Throw failed_to_fetch.

(** The response [internal_failure] with a body that would parse. *)
Definition internal_failure_json : Response :=
  mkResponse 500 (Normal VNull) (Normal "internal failure").

(** ** Reading back what [JSON.stringify] wrote *)

Lemma append_assoc (a b c : string) : (a ++ b) ++ c = a ++ b ++ c.
Proof. induction a as [|x a IH]; cbn; [reflexivity | now rewrite IH]. Qed.

Lemma append_empty_r (a : string) : a ++ EmptyString = a.
Proof. induction a as [|x a IH]; cbn; [reflexivity | now rewrite IH]. Qed.

Lemma unquote_quote_char (c : ascii) (rest : string) :
  unquote_chars (quote_char c ++ rest) = prepend c (unquote_chars rest).
Proof.
  destruct c as [[] [] [] [] [] [] [] []]; reflexivity.
Qed.

Lemma unquote_quote_chars (s tail : string) :
  unquote_chars (quote_chars s ++ dquote ++ tail) = Some (s, tail).
Proof.
  induction s as [|c s IH]; [reflexivity|].
  cbn [quote_chars]. rewrite append_assoc, unquote_quote_char, IH. reflexivity.
Qed.

Lemma read_literal_quote (s tail : string) :
  read_literal (QuoteJSONString s ++ tail) = Some (s, tail).
Proof.
  unfold QuoteJSONString. rewrite !append_assoc.
  cbn [dquote append read_literal Ascii.eqb Bool.eqb].
  apply unquote_quote_chars.
Qed.

Lemma read_member_quote (k v tail : string) :
  read_member (QuoteJSONString k ++ String ":" (QuoteJSONString v ++ tail))
  = Some ((k, v), tail).
Proof.
  unfold read_member. rewrite read_literal_quote.
  cbn [expect Ascii.eqb Bool.eqb]. now rewrite read_literal_quote.
Qed.

(** The two members of a serialised two-member object read back as they
    were given. *)
Lemma read_two_members_stringify (k1 v1 k2 v2 : string) :
  read_two_members (JSON_stringify [(k1, v1); (k2, v2)])
  = Some ((k1, v1), (k2, v2)).
Proof.
  unfold JSON_stringify, read_two_members. cbn [stringify_members].
  rewrite !append_assoc.
  cbn [expect append Ascii.eqb Bool.eqb].
  rewrite read_member_quote.
  cbn [expect append Ascii.eqb Bool.eqb].
  rewrite read_member_quote. reflexivity.
Qed.

(** ** How a submission runs *)

Section Runs.
Context {E : Engine}.
Variable net : Network.

Ltac unfold_monad :=
  unfold bind, writes, reads, await, eval, throw, ret, console_error, fetch.

(** The finally block never throws; it writes four properties. *)
Lemma finally_block_run (w : World) :
  finally_block w =
  (Normal tt,
   with_result_style_display "block"
     (with_loading_style_display "none"
        (with_button_textContent "Deploy" (with_button_disabled false w)))).
Proof. reflexivity. Qed.

(** The catch block never throws; it styles the panel and logs the error. *)
Lemma catch_block_run (err : Error) (w : World) :
  catch_block err w =
  (Normal tt,
   let w1 := with_result_innerHTML (error_html (message err))
               (with_result_className "error" w) in
   with_console (console w1 ++ [err]) w1).
Proof. reflexivity. Qed.

(** A submission is the start phase, the [try] block, the catch block when
    that threw, and the finally block. *)
Lemma listener_run (w : World) :
  submit_listener net w =
  match request_phase net (repoUrlInput_value w) (transmitted_base_path w)
          (at_request w) with
  | (Normal _, w1) => (Normal tt, snd (finally_block w1))
  | (Throw err, w1) => (Normal tt, snd (finally_block (snd (catch_block err w1))))
  end.
Proof.
  unfold submit_listener, try_catch_finally, transmitted_base_path, at_request.
  unfold bind at 1 2 3 4. unfold writes at 1. unfold reads.
  set (s := start_phase _).
  change s with (Normal tt, snd s).
  cbn [repoUrlInput_value basePathInput_value with_defaultPrevented].
  destruct (request_phase _ _ _ _) as [[[]|err] w1]; reflexivity.
Qed.

(** The start phase touches neither the inputs nor the two logs. *)
Lemma at_request_frame (w : World) :
  fetched (at_request w) = fetched w /\ console (at_request w) = console w.
Proof. split; reflexivity. Qed.

(** The four ways the [try] block can go, by what the network answers. *)
Lemma request_rejected (w : World) (e : Error) (url base_path : string) :
  net (deploy_request url base_path) = Throw e ->
  request_phase net url base_path w =
  (Throw e, with_fetched (fetched w ++ [deploy_request url base_path]) w).
Proof.
  intros Hnet. unfold request_phase. unfold_monad. rewrite Hnet. reflexivity.
Qed.

Lemma request_not_ok (w : World) (r : Response) (url base_path : string) :
  net (deploy_request url base_path) = Normal r ->
  ok r = false ->
  request_phase net url base_path w =
  (match text r with
   | Normal t =>
       Throw (new_Error ("Server error: " ++ N_to_string (status r) ++ " "
                           ++ (if truthy t then t else "Deployment failed.")))
   | Throw e => Throw e
   end,
   with_fetched (fetched w ++ [deploy_request url base_path]) w).
Proof.
  intros Hnet Hok. unfold request_phase. unfold_monad. rewrite Hnet, Hok.
  destruct (text r); reflexivity.
Qed.

Lemma request_ok (w : World) (r : Response) (url base_path : string) :
  net (deploy_request url base_path) = Normal r ->
  ok r = true ->
  let w1 := with_fetched (fetched w ++ [deploy_request url base_path]) w in
  request_phase net url base_path w =
  match json r with
  | Throw e => (Throw e, w1)
  | Normal data =>
      match interpolate data "slug" with
      | Throw e => (Throw e, with_result_className "success" w1)
      | Normal slug =>
          match interpolate data "url" with
          | Throw e => (Throw e, with_result_className "success" w1)
          | Normal site =>
              (Normal tt,
               with_result_innerHTML (success_html slug site)
                 (with_result_className "success" w1))
          end
      end
  end.
Proof.
  intros Hnet Hok. unfold request_phase. unfold_monad. rewrite Hnet, Hok.
  destruct (json r) as [data|e]; [|reflexivity].
  destruct (interpolate data "slug") as [slug|e]; [|reflexivity].
  destruct (interpolate data "url") as [site|e]; reflexivity.
Qed.

(** Whatever happens, the [try] block sends the one request and ends with
    the panel's class either as the start phase left it or as [success]. *)
Lemma request_phase_effects (w : World) (url base_path : string) :
  let out := request_phase net url base_path w in
  fetched (snd out) = (fetched w ++ [deploy_request url base_path])%list /\
  console (snd out) = console w /\
  (fst out = Normal tt -> result_className (snd out) = "success").
Proof.
  destruct (net (deploy_request url base_path)) as [r|e] eqn:Hnet.
  - destruct (ok r) eqn:Hok.
    + cbv zeta. rewrite (request_ok w r url base_path Hnet Hok).
      destruct (json r) as [data|e]; [|repeat split; discriminate].
      destruct (interpolate data "slug") as [slug|e]; [|repeat split; discriminate].
      destruct (interpolate data "url") as [site|e]; [|repeat split; discriminate].
      repeat split.
    + cbv zeta. rewrite (request_not_ok w r url base_path Hnet Hok).
      destruct (text r); repeat split; discriminate.
  - cbv zeta. rewrite (request_rejected w e url base_path Hnet).
    repeat split; discriminate.
Qed.

(** A string between two others occurs in the whole. *)
Lemma substring_middle (a p b : string) : substring_of p (a ++ p ++ b).
Proof. exists a, b. reflexivity. Qed.

Lemma substring_end (a p : string) : substring_of p (a ++ p).
Proof. exists a, EmptyString. now rewrite append_empty_r. Qed.

(** [ok] is the test that the status is one of 200 to 299. *)
Lemma ok_true_iff (r : Response) :
  ok r = true <-> (200 <= status r <= 299)%N.
Proof.
  unfold ok. rewrite andb_true_iff, !N.leb_le. reflexivity.
Qed.

Lemma ok_false_iff (r : Response) :
  ok r = false <-> ~ (200 <= status r <= 299)%N.
Proof.
  rewrite <- ok_true_iff. destruct (ok r); split; congruence.
Qed.

(** A value that is neither [null] nor [undefined] and lacks a field renders
    that field as the word [undefined]. *)
Lemma lacks_interpolate (data : Value) (k s : string) :
  lacks data k -> interpolate data k = Normal s -> s = "undefined".
Proof.
  unfold interpolate, lacks.
  destruct data; cbn; intros Hl H; try discriminate; try congruence.
  rewrite Hl in H. cbn in H. congruence.
Qed.

(** What the listener does with a failure of the [try] block. *)
Lemma raised_is_caught (w : World) (err : Error) :
  raises net w err ->
  fst (submit_listener net w) = Normal tt /\
  result_className (snd (submit_listener net w)) = "error" /\
  result_innerHTML (snd (submit_listener net w)) = error_html (message err) /\
  console (snd (submit_listener net w)) = (console w ++ [err])%list.
Proof.
  intros [w1 Hrun]. rewrite listener_run.
  pose proof (request_phase_effects (at_request w) (repoUrlInput_value w)
                (transmitted_base_path w)) as (_ & Hcon & _).
  rewrite Hrun in Hcon |- *. cbn in Hcon |- *. rewrite Hcon.
  repeat split.
Qed.

(** What the listener does when the [try] block completes. *)
Lemma completed_is_shown (w : World) (r : Response) (data : Value)
    (slug site : string) :
  net (sent_request w) = Normal r ->
  ok r = true ->
  json r = Normal data ->
  interpolate data "slug" = Normal slug ->
  interpolate data "url" = Normal site ->
  fst (submit_listener net w) = Normal tt /\
  result_className (snd (submit_listener net w)) = "success" /\
  result_innerHTML (snd (submit_listener net w)) = success_html slug site /\
  console (snd (submit_listener net w)) = console w.
Proof.
  intros Hnet Hok Hjson Hslug Hurl. rewrite listener_run.
  unfold sent_request in Hnet.
  rewrite (request_ok _ r _ _ Hnet Hok). cbv zeta.
  rewrite Hjson, Hslug, Hurl. repeat split.
Qed.

(** Three kinds of failure of the [try] block: the request is rejected, the
    body of a success response does not parse, the status is not a success. *)
Lemma transport_failure_raises (w : World) (e : Error) :
  net (sent_request w) = Throw e -> raises net w e.
Proof.
  intros Hnet. eexists. apply request_rejected. exact Hnet.
Qed.

Lemma parse_failure_raises (w : World) (r : Response) (e : Error) :
  net (sent_request w) = Normal r -> (200 <= status r <= 299)%N ->
  json r = Throw e -> raises net w e.
Proof.
  intros Hnet Hok Hjson. apply ok_true_iff in Hok. eexists.
  unfold sent_request in Hnet.
  rewrite (request_ok _ r _ _ Hnet Hok). cbv zeta. rewrite Hjson. reflexivity.
Qed.

Lemma bad_status_raises (w : World) (r : Response) (t : string) :
  net (sent_request w) = Normal r -> ~ (200 <= status r <= 299)%N ->
  text r = Normal t ->
  raises net w
    (new_Error ("Server error: " ++ N_to_string (status r) ++ " "
                  ++ (if truthy t then t else "Deployment failed."))).
Proof.
  intros Hnet Hok Htext. apply ok_false_iff in Hok. eexists.
  unfold sent_request in Hnet.
  rewrite (request_not_ok _ r _ _ Hnet Hok). rewrite Htext. reflexivity.
Qed.

End Runs.

(** ** The properties of the listener *)

Section Claims.
Context {E : Engine}.
Variable net : Network.

(** C1.  Every submission sends exactly one request: a POST to
    [/api/deploy] with the header [Content-Type: application/json] and the
    JSON text of [{url, base_path}], where [url] is the value of the url
    input as it is, and [base_path] is [/] when the base-path input is empty
    and the value of that input otherwise. *)
Theorem one_post_request (w : World) :
  exists base_path,
    fetched (snd (submit_listener net w)) =
    (fetched w ++
     [ {| resource := "/api/deploy";
          method := "POST";
          headers := [("Content-Type", "application/json")];
          body := JSON_stringify [("url", repoUrlInput_value w);
                                  ("base_path", base_path)] |} ])%list
    /\ read_two_members
         (JSON_stringify [("url", repoUrlInput_value w); ("base_path", base_path)])
       = Some (("url", repoUrlInput_value w), ("base_path", base_path))
    /\ (basePathInput_value w = EmptyString -> base_path = "/")
    /\ (basePathInput_value w <> EmptyString -> base_path = basePathInput_value w).
Proof.
  exists (transmitted_base_path w). split; [|split; [|split]].
  - rewrite listener_run.
    pose proof (request_phase_effects net (at_request w) (repoUrlInput_value w)
                  (transmitted_base_path w)) as (Hf & _ & _).
    destruct (request_phase _ _ _ _) as [[[]|err] w1]; cbn in Hf |- *; exact Hf.
  - apply read_two_members_stringify.
  - intros H. unfold transmitted_base_path. now rewrite H.
  - intros H. unfold transmitted_base_path.
    destruct (basePathInput_value w); [contradiction | reflexivity].
Qed.

(** C2.  After every submission the result panel is displayed and its class
    is [success] or [error]: the class list holds exactly one of the two. *)
Theorem panel_success_xor_error (w : World) :
  let w' := snd (submit_listener net w) in
  result_style_display w' = "block" /\
  (result_className w' = "success" \/ result_className w' = "error") /\
  xorb (has_class "success" (result_className w'))
       (has_class "error" (result_className w')) = true.
Proof.
  cbv zeta. rewrite listener_run.
  pose proof (request_phase_effects net (at_request w) (repoUrlInput_value w)
                (transmitted_base_path w)) as (_ & _ & Hc).
  destruct (request_phase _ _ _ _) as [[[]|err] w1]; cbn in Hc |- *.
  - rewrite (Hc eq_refl). split; [reflexivity|]. split; [now left | reflexivity].
  - split; [reflexivity|]. split; [now right | reflexivity].
Qed.

(** C3.  On every path the listener ends by running the finally block, and
    after it the submit button is enabled, the loading indicator is hidden
    and the result panel is displayed. *)
Theorem settlement_always_runs (w : World) :
  (exists w1, submit_listener net w = (Normal tt, snd (finally_block w1))) /\
  button_disabled (snd (submit_listener net w)) = false /\
  loading_style_display (snd (submit_listener net w)) = "none" /\
  result_style_display (snd (submit_listener net w)) = "block".
Proof.
  rewrite listener_run.
  destruct (request_phase _ _ _ _) as [[[]|err] w1].
  - split; [now exists w1 | repeat split].
  - split; [now exists (snd (catch_block err w1)) | repeat split].
Qed.

(** C4.  A failure thrown by the [try] block does not leave the listener:
    the listener completes normally, the panel gets the class [error] and
    the text [<strong>Error:</strong> ] followed by the failure's message,
    and the failure is logged exactly once. *)
Theorem failures_caught_once (w : World) (err : Error) :
  raises net w err ->
  fst (submit_listener net w) = Normal tt /\
  result_className (snd (submit_listener net w)) = "error" /\
  result_innerHTML (snd (submit_listener net w))
  = "<strong>Error:</strong> " ++ message err /\
  console (snd (submit_listener net w)) = (console w ++ [err])%list.
Proof.
  intros Hr. exact (raised_is_caught net w err Hr).
Qed.

(** C5, amended.  When the status of the response is not one of 200 to 299
    and reading its body as text gives the text [t], the [try] block throws
    an error whose message is [Server error: ], the status, a space, and
    [t], or [Deployment failed.] when [t] is empty; the panel shows that
    message. *)
Theorem bad_status_message (w : World) (r : Response) (t : string) :
  net (sent_request w) = Normal r ->
  ~ (200 <= status r <= 299)%N ->
  text r = Normal t ->
  let msg := "Server error: " ++ N_to_string (status r) ++ " "
             ++ match t with
                | EmptyString => "Deployment failed."
                | _ => t
                end in
  raises net w (new_Error msg) /\
  result_innerHTML (snd (submit_listener net w)) = "<strong>Error:</strong> " ++ msg.
Proof.
  intros Hnet Hok Htext msg.
  assert (Hr : raises net w (new_Error msg)).
  { replace msg with ("Server error: " ++ N_to_string (status r) ++ " "
                        ++ (if truthy t then t else "Deployment failed.")).
    - now apply (bad_status_raises net).
    - subst msg. destruct t; reflexivity. }
  split; [exact Hr|].
  apply (raised_is_caught net w _ Hr).
Qed.

(** C6, amended.  When the status is one of 200 to 299, the body parses to
    [data], and reading [slug] and [url] from [data] and converting each to
    a string does not throw, the listener completes, the panel has the class
    [success], and its content is the success template: the string of the
    slug as text, and an anchor whose [href] is written with the string of
    the url. *)
Theorem success_renders_slug_and_link
    (w : World) (r : Response) (data : Value) (slug site : string) :
  net (sent_request w) = Normal r ->
  (200 <= status r <= 299)%N ->
  json r = Normal data ->
  interpolate data "slug" = Normal slug ->
  interpolate data "url" = Normal site ->
  let w' := snd (submit_listener net w) in
  fst (submit_listener net w) = Normal tt /\
  result_className w' = "success" /\
  result_innerHTML w' = success_html slug site /\
  substring_of ("<p>Site ID: <strong>" ++ slug ++ "</strong></p>")
    (result_innerHTML w') /\
  substring_of ("<a href=" ++ dquote ++ site ++ dquote ++ " target=")
    (result_innerHTML w').
Proof.
  intros Hnet Hok Hjson Hslug Hurl w'. apply ok_true_iff in Hok.
  destruct (completed_is_shown net w r data slug site Hnet Hok Hjson Hslug Hurl)
    as (Hfst & Hclass & Hhtml & _).
  subst w'. rewrite Hhtml. repeat split; try assumption.
  - exists (newline ++ spaces 24 ++ "<strong>Success!</strong>" ++ newline
            ++ spaces 24).
    eexists. unfold success_html. rewrite !append_assoc. reflexivity.
  - exists (newline ++ spaces 24 ++ "<strong>Success!</strong>" ++ newline
            ++ spaces 24 ++ "<p>Site ID: <strong>" ++ slug ++ "</strong></p>"
            ++ newline ++ spaces 24).
    eexists. unfold success_html. rewrite !append_assoc. reflexivity.
Qed.

(** C7, amended.  After every submission the submit button is enabled; so
    its enabled state is the one it had before the submission exactly when
    it was enabled then. *)
Theorem button_enabled_after (w : World) :
  button_disabled (snd (submit_listener net w)) = false /\
  (button_disabled (snd (submit_listener net w)) = button_disabled w
   <-> button_disabled w = false).
Proof.
  assert (H : button_disabled (snd (submit_listener net w)) = false).
  { rewrite listener_run.
    destruct (request_phase _ _ _ _) as [[[]|err] w1]; reflexivity. }
  rewrite H. split; [reflexivity | split; congruence].
Qed.

(** C8, amended.  During the request the label of the submit button is
    [Deploying...]; after every submission it is [Deploy], which is the label
    from before the submission exactly when that label was [Deploy]. *)
Theorem button_label_after (w : World) :
  button_textContent (at_request w) = "Deploying..." /\
  button_textContent (snd (submit_listener net w)) = "Deploy" /\
  (button_textContent (snd (submit_listener net w)) = button_textContent w
   <-> button_textContent w = "Deploy").
Proof.
  assert (H : button_textContent (snd (submit_listener net w)) = "Deploy").
  { rewrite listener_run.
    destruct (request_phase _ _ _ _) as [[[]|err] w1]; reflexivity. }
  rewrite H. split; [reflexivity|]. split; [reflexivity | split; congruence].
Qed.

(** C9, amended.  When the status is one of 200 to 299 and the body parses
    to a value that lacks [slug] or [url], and reading and converting the two
    fields does not throw (the value is not [null], and a field that is
    present converts to a string), no failure is raised or logged, the panel
    has the class [success], and the word [undefined] stands where each
    missing field would. *)
Theorem missing_field_shows_undefined
    (w : World) (r : Response) (data : Value) (slug site : string) :
  net (sent_request w) = Normal r ->
  (200 <= status r <= 299)%N ->
  json r = Normal data ->
  lacks data "slug" \/ lacks data "url" ->
  interpolate data "slug" = Normal slug ->
  interpolate data "url" = Normal site ->
  let w' := snd (submit_listener net w) in
  fst (submit_listener net w) = Normal tt /\
  console w' = console w /\
  result_className w' = "success" /\
  result_innerHTML w' = success_html slug site /\
  (lacks data "slug" -> slug = "undefined") /\
  (lacks data "url" -> site = "undefined").
Proof.
  intros Hnet Hok Hjson _ Hslug Hurl w'. apply ok_true_iff in Hok.
  destruct (completed_is_shown net w r data slug site Hnet Hok Hjson Hslug Hurl)
    as (Hfst & Hclass & Hhtml & Hcon).
  repeat split; try assumption.
  - intros Hl. exact (lacks_interpolate data "slug" slug Hl Hslug).
  - intros Hl. exact (lacks_interpolate data "url" site Hl Hurl).
Qed.

(** C10.  A string the server controls (the slug or the url of a success
    payload, the body text of a response that is not a success) is in the
    panel's [innerHTML] character for character, whatever it contains. *)
Theorem server_strings_verbatim (w : World) (s : string) :
  server_string net w s ->
  substring_of s (result_innerHTML (snd (submit_listener net w))).
Proof.
  intros [r data site Hnet Hok Hjson Hslug Hurl
         | r data slug Hnet Hok Hjson Hslug Hurl
         | r Hnet Hok Htext].
  - assert (Hs : interpolate data "slug" = Normal s).
    { unfold interpolate. now rewrite Hslug. }
    destruct (completed_is_shown net w r data s site Hnet Hok Hjson Hs Hurl)
      as (_ & _ & Hhtml & _).
    rewrite Hhtml. unfold success_html.
    eexists (newline ++ spaces 24 ++ "<strong>Success!</strong>" ++ newline
               ++ spaces 24 ++ "<p>Site ID: <strong>"), _.
    rewrite !append_assoc. reflexivity.
  - assert (Hs : interpolate data "url" = Normal s).
    { unfold interpolate. now rewrite Hurl. }
    destruct (completed_is_shown net w r data slug s Hnet Hok Hjson Hslug Hs)
      as (_ & _ & Hhtml & _).
    rewrite Hhtml. unfold success_html.
    eexists (newline ++ spaces 24 ++ "<strong>Success!</strong>" ++ newline
               ++ spaces 24 ++ "<p>Site ID: <strong>" ++ slug
               ++ "</strong></p>" ++ newline ++ spaces 24 ++ "<a href="
               ++ dquote), _.
    rewrite !append_assoc. reflexivity.
  - apply ok_false_iff in Hok.
    pose proof (bad_status_raises net w r s Hnet Hok Htext) as Hr.
    destruct (raised_is_caught net w _ Hr) as (_ & _ & Hhtml & _).
    rewrite Hhtml. cbn [message new_Error]. unfold error_html.
    destruct s as [|c s'].
    + exists EmptyString. eexists. reflexivity.
    + cbn [truthy].
      rewrite <- !append_assoc. apply substring_end.
Qed.

End Claims.

(** ** The scenarios of the specification *)

(** Scenario A: an empty base path is sent as [/], and the 200 response
    with a slug and a url gives the success panel. *)
Example scenario_A :
  let out := submit_listener (answers deployed)
               (idle_page "https://example.com/repo.git" EmptyString) in
  fst out = Normal tt /\
  map body (fetched (snd out)) =
    ["{" ++ dquote ++ "url" ++ dquote ++ ":" ++ dquote
       ++ "https://example.com/repo.git" ++ dquote ++ "," ++ dquote
       ++ "base_path" ++ dquote ++ ":" ++ dquote ++ "/" ++ dquote ++ "}"] /\
  result_className (snd out) = "success" /\
  result_innerHTML (snd out) = success_html "abc123" "https://abc123.example.com" /\
  console (snd out) = [].
Proof. repeat split. Qed.

(** Scenarios B and C: a 500 response with a body, and with none. *)
Example scenario_B :
  let out := submit_listener (answers internal_failure)
               (idle_page "https://example.com/repo.git" "/docs") in
  result_className (snd out) = "error" /\
  result_innerHTML (snd out)
  = "<strong>Error:</strong> Server error: 500 internal failure".
Proof. split; reflexivity. Qed.

Example scenario_C :
  let out := submit_listener (answers empty_failure)
               (idle_page "https://example.com/repo.git" "/docs") in
  result_className (snd out) = "error" /\
  result_innerHTML (snd out)
  = "<strong>Error:</strong> Server error: 500 Deployment failed.".
Proof. split; reflexivity. Qed.

(** Scenario D: the transport throws. *)
Example scenario_D :
  let out := submit_listener (unreachable failed_to_fetch)
               (idle_page "https://example.com/repo.git" "/docs") in
  result_className (snd out) = "error" /\
  result_innerHTML (snd out) = "<strong>Error:</strong> Failed to fetch" /\
  loading_style_display (snd out) = "none" /\
  button_disabled (snd out) = false.
Proof. repeat split. Qed.

(** A 200 response that is not JSON. *)
Example scenario_not_json :
  let out := submit_listener (answers not_json)
               (idle_page "https://example.com/repo.git" "/docs") in
  fst out = Normal tt /\
  result_className (snd out) = "error" /\
  result_innerHTML (snd out)
  = "<strong>Error:</strong> Unexpected token < in JSON".
Proof. repeat split. Qed.

(** How values are converted inside a template literal. *)
Example ToString_array :
  ToString (VArray [VNumber 1%Z; VNull; VArray [VString "a"; VBool true];
                    VObject []])
  = Normal "1,,a,true,[object Object]".
Proof. reflexivity. Qed.

Example quote_chars_control :
  quote_chars (String "001"%char (String "010"%char "a/b"))
  = backslash ++ "u0001" ++ backslash ++ "na/b".
Proof. reflexivity. Qed.

(** ** The properties at sample submissions *)

Lemma failures_caught_once_witness :
  let page := idle_page "https://example.com/repo.git" EmptyString in
  let out := submit_listener (unreachable failed_to_fetch) page in
  raises (unreachable failed_to_fetch) page failed_to_fetch /\
  fst out = Normal tt /\
  result_className (snd out) = "error" /\
  result_innerHTML (snd out) = "<strong>Error:</strong> Failed to fetch" /\
  console (snd out) = [failed_to_fetch].
Proof.
  cbv zeta.
  assert (H : raises (unreachable failed_to_fetch)
                (idle_page "https://example.com/repo.git" EmptyString)
                failed_to_fetch).
  { eexists. reflexivity. }
  split; [exact H|].
  exact (failures_caught_once (unreachable failed_to_fetch) _ _ H).
Defined.

Lemma bad_status_message_witness :
  let page := idle_page "https://example.com/repo.git" EmptyString in
  (answers internal_failure (sent_request page)
   = Normal internal_failure /\
   ~ (200 <= status internal_failure <= 299)%N /\
   text internal_failure = Normal "internal failure") /\
  raises (answers internal_failure) page
    (new_Error "Server error: 500 internal failure") /\
  result_innerHTML (snd (submit_listener (answers internal_failure) page))
  = "<strong>Error:</strong> Server error: 500 internal failure".
Proof.
  cbv zeta. split.
  - split; [reflexivity | split; [cbn; lia | reflexivity]].
  - apply (bad_status_message (answers internal_failure)
             (idle_page "https://example.com/repo.git" EmptyString)
             internal_failure "internal failure").
    + reflexivity.
    + cbn; lia.
    + reflexivity.
Defined.

Lemma success_renders_slug_and_link_witness :
  let page := idle_page "https://example.com/repo.git" EmptyString in
  let w' := snd (submit_listener (answers deployed) page) in
  (200 <= status deployed <= 299)%N /\
  result_className w' = "success" /\
  substring_of "<p>Site ID: <strong>abc123</strong></p>" (result_innerHTML w') /\
  substring_of ("<a href=" ++ dquote ++ "https://abc123.example.com" ++ dquote
                  ++ " target=")
    (result_innerHTML w').
Proof.
  cbv zeta.
  assert (Hs : (200 <= status deployed <= 299)%N) by (cbn; lia).
  split; [exact Hs|].
  destruct (success_renders_slug_and_link (answers deployed)
              (idle_page "https://example.com/repo.git" EmptyString)
              deployed _ "abc123" "https://abc123.example.com"
              eq_refl Hs eq_refl eq_refl eq_refl)
    as (_ & Hclass & _ & Hslug & Hlink).
  split; [exact Hclass | split; [exact Hslug | exact Hlink]].
Defined.

Lemma missing_field_shows_undefined_witness :
  let page := idle_page "https://example.com/repo.git" "/docs" in
  let w' := snd (submit_listener (answers only_slug) page) in
  (200 <= status only_slug <= 299)%N /\
  lacks (VObject [("slug", VString "abc123")]) "url" /\
  fst (submit_listener (answers only_slug) page) = Normal tt /\
  console w' = [] /\
  result_className w' = "success" /\
  result_innerHTML w' = success_html "abc123" "undefined".
Proof.
  cbv zeta.
  assert (Hs : (200 <= status only_slug <= 299)%N) by (cbn; lia).
  assert (Hl : lacks (VObject [("slug", VString "abc123")]) "url")
    by reflexivity.
  split; [exact Hs | split; [exact Hl|]].
  destruct (missing_field_shows_undefined (answers only_slug)
              (idle_page "https://example.com/repo.git" "/docs")
              only_slug _ "abc123" "undefined"
              eq_refl Hs eq_refl (or_intror Hl) eq_refl eq_refl)
    as (Hfst & Hcon & Hclass & Hhtml & _).
  split; [exact Hfst | split; [exact Hcon | split; [exact Hclass | exact Hhtml]]].
Defined.

Lemma server_strings_verbatim_witness :
  let page := idle_page "https://example.com/repo.git" EmptyString in
  server_string (answers markup) page "<img src=x onerror=alert(1)>" /\
  substring_of "<img src=x onerror=alert(1)>"
    (result_innerHTML (snd (submit_listener (answers markup) page))).
Proof.
  cbv zeta.
  assert (H : server_string (answers markup)
                (idle_page "https://example.com/repo.git" EmptyString)
                "<img src=x onerror=alert(1)>").
  { apply (server_slug _ _ _ markup
             (VObject [("slug", VString "<img src=x onerror=alert(1)>");
                       ("url", VString "javascript:alert(1)")])
             "javascript:alert(1)"); reflexivity. }
  split; [exact H|].
  exact (server_strings_verbatim (answers markup) _ _ H).
Defined.

(** ** Where the claims as first stated fail *)

(** C6 as stated fails: a 200 response whose body is the JSON text [null],
    or whose [url] is an object with a [toString] member, ends in the error
    panel. *)
Lemma success_status_can_end_in_error :
  let page := idle_page "https://example.com/repo.git" EmptyString in
  ((200 <= status null_body <= 299)%N /\
   json null_body = Normal VNull /\
   result_className (snd (submit_listener (answers null_body) page)) <> "success" /\
   result_innerHTML (snd (submit_listener (answers null_body) page))
   = "<strong>Error:</strong> Cannot read properties of null (reading 'slug')") /\
  ((200 <= status slug_and_opaque_url <= 299)%N /\
   result_className (snd (submit_listener (answers slug_and_opaque_url) page))
   <> "success").
Proof.
  cbv zeta. repeat split; try (cbn; lia); try reflexivity; cbn; discriminate.
Qed.

(** C7 as stated fails: a button that was disabled before the submission is
    enabled after it. *)
Lemma disabled_button_not_restored :
  button_disabled disabled_page = true /\
  button_disabled (snd (submit_listener (answers deployed) disabled_page))
  <> button_disabled disabled_page.
Proof.
  split; [reflexivity | cbn; discriminate].
Qed.

(** C8 as stated fails: a button labelled [Launch] before the submission is
    labelled [Deploy] after it. *)
Lemma other_label_not_restored :
  button_textContent launch_page = "Launch" /\
  button_textContent (snd (submit_listener (answers deployed) launch_page))
  <> button_textContent launch_page.
Proof.
  split; [reflexivity | cbn; discriminate].
Qed.

(** C9 as stated fails: the JSON body [null] lacks both fields, and an
    object with only a [url] that has a [toString] member lacks [slug]; on
    both a failure is raised and logged and the panel has the class [error]. *)
Lemma missing_field_can_raise :
  let page := idle_page "https://example.com/repo.git" EmptyString in
  ((200 <= status null_body <= 299)%N /\
   json null_body = Normal VNull /\
   lacks VNull "slug" /\
   raises (answers null_body) page
     (TypeError "Cannot read properties of null (reading 'slug')") /\
   result_className (snd (submit_listener (answers null_body) page)) = "error") /\
  ((200 <= status opaque_url <= 299)%N /\
   lacks (VObject [("url", VObject [("toString", VNumber 1%Z)])]) "slug" /\
   raises (answers opaque_url) page
     (TypeError "Cannot convert object to primitive value") /\
   result_className (snd (submit_listener (answers opaque_url) page)) = "error").
Proof.
  cbv zeta. repeat split; try (cbn; lia); try (eexists; reflexivity).
Qed.

(** C5 as stated fails: a 502 response whose body cannot be read as text
    has a status that is not one of 200 to 299, yet no error with a
    [Server error] message, nor any other error made by the listener, is
    thrown; the failure of the read is thrown and shown in its place. *)
Lemma unreadable_body_has_no_server_error :
  ~ (200 <= status unreadable_failure <= 299)%N /\
  text unreadable_failure = Throw (TypeError "network error") /\
  (forall msg, ~ raises (answers unreadable_failure) fresh_page (new_Error msg)) /\
  raises (answers unreadable_failure) fresh_page (TypeError "network error") /\
  result_innerHTML (snd (submit_listener (answers unreadable_failure) fresh_page))
  <> "<strong>Error:</strong> Server error: 502 Deployment failed." /\
  result_innerHTML (snd (submit_listener (answers unreadable_failure) fresh_page))
  = "<strong>Error:</strong> network error".
Proof.
  split; [cbn; lia|]. split; [reflexivity|]. split; [|split; [|split]].
  - intros msg [w1 H]. cbv in H. discriminate H.
  - eexists. reflexivity.
  - cbn. discriminate.
  - reflexivity.
Qed.

(** ** More on how a submission runs *)

Section Outcomes.
Context {E : Engine}.
Variable net : Network.

(** The three shapes the [try] block can end in: thrown before the panel was
    touched, thrown after the class was set, or completed with the success
    template in the panel. *)
Lemma request_phase_cases (w : World) (url base_path : string) :
  let w0 := with_fetched (fetched w ++ [deploy_request url base_path]) w in
  (exists e, request_phase net url base_path w = (Throw e, w0)) \/
  (exists e, request_phase net url base_path w
             = (Throw e, with_result_className "success" w0)) \/
  (exists r data slug site,
      net (deploy_request url base_path) = Normal r /\ ok r = true /\
      json r = Normal data /\
      interpolate data "slug" = Normal slug /\
      interpolate data "url" = Normal site /\
      request_phase net url base_path w
      = (Normal tt,
         with_result_innerHTML (success_html slug site)
           (with_result_className "success" w0))).
Proof.
  cbv zeta.
  destruct (net (deploy_request url base_path)) as [r|e] eqn:Hnet.
  - destruct (ok r) eqn:Hok.
    + rewrite (request_ok net w r url base_path Hnet Hok). cbv zeta.
      destruct (json r) as [data|e] eqn:Hjson; [|left; now exists e].
      destruct (interpolate data "slug") as [slug|e] eqn:Hslug;
        [|right; left; now exists e].
      destruct (interpolate data "url") as [site|e] eqn:Hurl;
        [|right; left; now exists e].
      right; right. exists r, data, slug, site. repeat split; assumption.
    + rewrite (request_not_ok net w r url base_path Hnet Hok).
      left. destruct (text r); eexists; reflexivity.
  - rewrite (request_rejected net w e url base_path Hnet). left. now exists e.
Qed.

(** The listener's answer depends on the network only through the answer to
    the request it sends. *)
Lemma request_phase_same_answer (net' : Network) (w : World) (url base_path : string) :
  net (deploy_request url base_path) = net' (deploy_request url base_path) ->
  request_phase net url base_path w = request_phase net' url base_path w.
Proof.
  intros H. unfold request_phase, bind, fetch. rewrite H. reflexivity.
Qed.

(** Two responses that agree on what the listener reads give the same run. *)
Lemma request_phase_same_reads (net' : Network) (w : World) (url base_path : string)
    (r r' : Response) :
  net (deploy_request url base_path) = Normal r ->
  net' (deploy_request url base_path) = Normal r' ->
  status r = status r' ->
  (if ok r
   then match json r, json r' with
        | Normal d, Normal d' =>
            interpolate d "slug" = interpolate d' "slug" /\
            interpolate d "url" = interpolate d' "url"
        | Throw e, Throw e' => e = e'
        | _, _ => False
        end
   else text r = text r') ->
  request_phase net url base_path w = request_phase net' url base_path w.
Proof.
  intros Hnet Hnet' Hst Hread.
  assert (Hok' : ok r' = ok r) by (unfold ok; now rewrite Hst).
  destruct (ok r) eqn:Hok.
  - rewrite (request_ok net w r url base_path Hnet Hok).
    rewrite (request_ok net' w r' url base_path Hnet' Hok'). cbv zeta.
    destruct (json r) as [d|e], (json r') as [d'|e']; try contradiction.
    + destruct Hread as [Hs Hu]. now rewrite Hs, Hu.
    + now subst e'.
  - rewrite (request_not_ok net w r url base_path Hnet Hok).
    rewrite (request_not_ok net' w r' url base_path Hnet' Hok').
    now rewrite Hread, Hst.
Qed.

(** The page as the [try] block finds it, written out. *)
Lemma at_request_eq (w : World) :
  at_request w =
  mkWorld (repoUrlInput_value w) (basePathInput_value w) true "Deploying..."
    "block" "none" EmptyString EmptyString true (fetched w) (console w).
Proof. reflexivity. Qed.

(** The page after a submission, written out from what the [try] block did. *)
Lemma listener_result (w : World) :
  exists (failure : option Error) (html : string),
    submit_listener net w =
    (Normal tt,
     mkWorld (repoUrlInput_value w) (basePathInput_value w) false "Deploy"
       "none" "block" html
       (match failure with Some _ => "error" | None => "success" end)
       true
       (fetched w ++ [sent_request w])
       (match failure with Some e => console w ++ [e] | None => console w end))
    /\ match failure with
       | Some e => html = error_html (message e) /\ raises net w e
       | None =>
           exists r data slug site,
             net (sent_request w) = Normal r /\ ok r = true /\
             json r = Normal data /\
             interpolate data "slug" = Normal slug /\
             interpolate data "url" = Normal site /\
             html = success_html slug site
       end.
Proof.
  rewrite listener_run.
  destruct (request_phase_cases (at_request w) (repoUrlInput_value w)
              (transmitted_base_path w))
    as [[e H] | [[e H] | (r & data & slug & site & Hnet & Hok & Hjson & Hs & Hu & H)]].
  - exists (Some e), (error_html (message e)). rewrite H. split.
    + reflexivity.
    + split; [reflexivity | eexists; exact H].
  - exists (Some e), (error_html (message e)). rewrite H. split.
    + reflexivity.
    + split; [reflexivity | eexists; exact H].
  - exists None, (success_html slug site). rewrite H. split.
    + reflexivity.
    + exists r, data, slug, site. repeat split; assumption.
Qed.

(** The [try] block passes the two logs through: it adds its request to
    whatever was sent before and does not look at either log. *)
Lemma request_phase_logs (w : World) (url base_path : string)
    (sent : list Request) (logged : list Error) :
  request_phase net url base_path (with_console logged (with_fetched sent w)) =
  (fst (request_phase net url base_path w),
   with_console logged
     (with_fetched (sent ++ [deploy_request url base_path])
        (snd (request_phase net url base_path w)))).
Proof.
  destruct (net (deploy_request url base_path)) as [r|e] eqn:Hnet.
  - destruct (ok r) eqn:Hok.
    + rewrite !(request_ok net _ r url base_path Hnet Hok). cbv zeta.
      destruct (json r) as [data|e]; [|reflexivity].
      destruct (interpolate data "slug") as [slug|e]; [|reflexivity].
      destruct (interpolate data "url") as [site|e]; reflexivity.
    + rewrite !(request_not_ok net _ r url base_path Hnet Hok).
      destruct (text r); reflexivity.
  - rewrite !(request_rejected net _ e url base_path Hnet). reflexivity.
Qed.

(** A page with the same input values goes through the same [try] block,
    whatever else it shows and whatever its logs hold. *)
Lemma request_phase_other_page (w : World)
    (disabled : bool) (label loader panel html class : string) (prevented : bool)
    (sent : list Request) (logged : list Error) :
  let w' := mkWorld (repoUrlInput_value w) (basePathInput_value w) disabled
              label loader panel html class prevented sent logged in
  let out := request_phase net (repoUrlInput_value w) (transmitted_base_path w)
               (at_request w) in
  request_phase net (repoUrlInput_value w') (transmitted_base_path w')
    (at_request w') =
  (fst out,
   with_console logged (with_fetched (sent ++ [sent_request w]) (snd out))).
Proof.
  exact (request_phase_logs (at_request w) (repoUrlInput_value w)
           (transmitted_base_path w) sent logged).
Qed.

End Outcomes.

(** ** Further properties of the listener *)

Section Further.
Context {E : Engine}.
Variable net : Network.

(** X1.  Whatever the button, the loading indicator and the result panel
    showed before, a submission overwrites it: two pages with the same input
    values and the same logs end in the same state. *)
Theorem previous_result_is_overwritten (w1 w2 : World) :
  repoUrlInput_value w1 = repoUrlInput_value w2 ->
  basePathInput_value w1 = basePathInput_value w2 ->
  fetched w1 = fetched w2 ->
  console w1 = console w2 ->
  submit_listener net w1 = submit_listener net w2.
Proof.
  intros Hu Hb Hf Hc. rewrite !listener_run, !at_request_eq.
  unfold transmitted_base_path. now rewrite Hu, Hb, Hf, Hc.
Qed.

(** X2.  The listener never changes the values of the two inputs. *)
Theorem inputs_are_left_alone (w : World) :
  repoUrlInput_value (snd (submit_listener net w)) = repoUrlInput_value w /\
  basePathInput_value (snd (submit_listener net w)) = basePathInput_value w.
Proof.
  destruct (listener_result net w) as (failure & html & Hrun & _).
  rewrite Hrun. split; reflexivity.
Qed.

(** X3.  Every submission has its default action prevented, whatever the
    request does. *)
Theorem default_is_prevented (w : World) :
  defaultPrevented (snd (submit_listener net w)) = true.
Proof.
  destruct (listener_result net w) as (failure & html & Hrun & _).
  now rewrite Hrun.
Qed.

(** X4.  The panel and the console agree after every submission: either the
    class is [success], the content is the success template and nothing was
    logged, or the class is [error], the content is the error line of one
    error and exactly that error was logged. *)
Theorem panel_matches_log (w : World) :
  let w' := snd (submit_listener net w) in
  (result_className w' = "success" /\
   (exists slug site, result_innerHTML w' = success_html slug site) /\
   console w' = console w)
  \/
  (result_className w' = "error" /\
   exists err, result_innerHTML w' = error_html (message err) /\
               console w' = (console w ++ [err])%list).
Proof.
  cbv zeta.
  destruct (listener_result net w) as ([e|] & html & Hrun & Hshape);
    rewrite Hrun; cbn [snd result_className result_innerHTML console].
  - right. split; [reflexivity|]. exists e. now destruct Hshape.
  - left. destruct Hshape as (r & data & slug & site & _ & _ & _ & _ & _ & Hh).
    split; [reflexivity|]. split; [now exists slug, site | reflexivity].
Qed.

(** X5.  The panel ends with the class [success] exactly when the response
    has an ok status, its body parses, and reading and converting [slug] and
    [url] does not throw. *)
Theorem success_panel_iff (w : World) :
  result_className (snd (submit_listener net w)) = "success" <->
  exists r data slug site,
    net (sent_request w) = Normal r /\ ok r = true /\ json r = Normal data /\
    interpolate data "slug" = Normal slug /\
    interpolate data "url" = Normal site.
Proof.
  split.
  - destruct (listener_result net w) as ([e|] & html & Hrun & Hshape);
      rewrite Hrun; cbn [snd result_className]; [discriminate|].
    intros _. destruct Hshape as (r & data & slug & site & H1 & H2 & H3 & H4 & H5 & _).
    now exists r, data, slug, site.
  - intros (r & data & slug & site & H1 & H2 & H3 & H4 & H5).
    now destruct (completed_is_shown net w r data slug site H1 H2 H3 H4 H5)
      as (_ & Hc & _).
Qed.

(** X6.  One request, one answer: two networks that answer the request of
    this submission alike give the same run, however they differ elsewhere. *)
Theorem one_answer_decides (net' : Network) (w : World) :
  net (sent_request w) = net' (sent_request w) ->
  submit_listener net w = submit_listener net' w.
Proof.
  intros H. rewrite !listener_run.
  now rewrite (request_phase_same_answer net net' _ _ _ H).
Qed.

(** X7.  On a response that is not ok only the status and the text of the
    body are used: what [json()] would give makes no difference. *)
Theorem failure_reads_status_and_text (net' : Network) (w : World) (r r' : Response) :
  net (sent_request w) = Normal r ->
  net' (sent_request w) = Normal r' ->
  ok r = false ->
  status r = status r' ->
  text r = text r' ->
  submit_listener net w = submit_listener net' w.
Proof.
  intros Hnet Hnet' Hok Hst Htext. rewrite !listener_run.
  rewrite (request_phase_same_reads net net' _ _ _ r r' Hnet Hnet' Hst);
    [reflexivity|].
  now rewrite Hok.
Qed.

(** X8.  On an ok response only the strings of [slug] and [url] are used:
    other members of the payload, the exact status and what [text()] would
    give make no difference. *)
Theorem success_reads_slug_and_url (net' : Network) (w : World)
    (r r' : Response) (data data' : Value) :
  net (sent_request w) = Normal r ->
  net' (sent_request w) = Normal r' ->
  ok r = true -> ok r' = true ->
  json r = Normal data -> json r' = Normal data' ->
  interpolate data "slug" = interpolate data' "slug" ->
  interpolate data "url" = interpolate data' "url" ->
  submit_listener net w = submit_listener net' w.
Proof.
  intros Hnet Hnet' Hok Hok' Hj Hj' Hs Hu. rewrite !listener_run.
  unfold sent_request in Hnet, Hnet'.
  rewrite (request_ok net _ r _ _ Hnet Hok), (request_ok net' _ r' _ _ Hnet' Hok').
  cbv zeta. now rewrite Hj, Hj', Hs, Hu.
Qed.

(** X9.  When the status is not ok and the body cannot be read as text, the
    failure of the read is what is shown and logged; no [Server error]
    message is built and the status is not shown. *)
Theorem unreadable_body_shows_read_failure (w : World) (r : Response) (e : Error) :
  net (sent_request w) = Normal r ->
  ok r = false ->
  text r = Throw e ->
  submit_listener net w =
  (Normal tt,
   mkWorld (repoUrlInput_value w) (basePathInput_value w) false "Deploy"
     "none" "block" ("<strong>Error:</strong> " ++ message e) "error" true
     (fetched w ++ [sent_request w]) (console w ++ [e])).
Proof.
  intros Hnet Hok Htext. rewrite listener_run. unfold sent_request in Hnet.
  rewrite (request_not_ok net _ r _ _ Hnet Hok), Htext. reflexivity.
Qed.

(** X10.  Nothing of a submission but the two logs carries over to the
    next one.  Submitting again from the page a first submission left sends
    the same request a second time; whatever the network answers the second
    time, the page ends, apart from the two logs, as a submission from the
    first page with that answer ends; so it is left as the first submission
    left it when the second answer is the first answer again. *)
Theorem resubmission_starts_afresh (net' : Network) (w : World) :
  let w1 := snd (submit_listener net w) in
  let w2 := snd (submit_listener net' w1) in
  fetched w2 = (fetched w ++ [sent_request w; sent_request w])%list /\
  without_logs w2 = without_logs (snd (submit_listener net' w)) /\
  (net' (sent_request w) = net (sent_request w) ->
   without_logs w2 = without_logs w1).
Proof.
  cbv zeta.
  assert (Hfresh :
    fetched (snd (submit_listener net' (snd (submit_listener net w))))
    = (fetched w ++ [sent_request w; sent_request w])%list /\
    without_logs (snd (submit_listener net' (snd (submit_listener net w))))
    = without_logs (snd (submit_listener net' w))).
  { destruct (listener_result net w) as (failure & html & Hrun & _).
    rewrite Hrun. cbn [snd].
    rewrite (listener_run net' (mkWorld _ _ _ _ _ _ _ _ _ _ _)).
    rewrite (request_phase_other_page net').
    rewrite (listener_run net' w).
    pose proof (request_phase_effects net' (at_request w) (repoUrlInput_value w)
                  (transmitted_base_path w)) as (Hf & _ & _).
    destruct (request_phase net' (repoUrlInput_value w) (transmitted_base_path w)
                (at_request w)) as [[[]|err] wr];
      cbn [fst snd]; (split; [cbn; now rewrite <- app_assoc | reflexivity]). }
  destruct Hfresh as [Hf Hp]. split; [exact Hf|]. split; [exact Hp|].
  intros Hsame. rewrite Hp. f_equal. f_equal.
  rewrite !listener_run.
  now rewrite (request_phase_same_answer net' net _ _ _ Hsame).
Qed.

End Further.

(** X11.  Two pages send the same request exactly when their url inputs are
    equal and their base-path inputs are equal or are the empty string and
    [/]: the request tells every other pair of inputs apart, and an empty
    base path cannot be told from [/]. *)
Theorem same_request_iff (w1 w2 : World) :
  sent_request w1 = sent_request w2 <->
  repoUrlInput_value w1 = repoUrlInput_value w2 /\
  (basePathInput_value w1 = basePathInput_value w2 \/
   (basePathInput_value w1 = EmptyString /\ basePathInput_value w2 = "/") \/
   (basePathInput_value w1 = "/" /\ basePathInput_value w2 = EmptyString)).
Proof.
  unfold sent_request, deploy_request, transmitted_base_path. split.
  - intros H. apply (f_equal body) in H. cbn [body] in H.
    apply (f_equal read_two_members) in H.
    rewrite !read_two_members_stringify in H.
    injection H as Hu Hb. split; [exact Hu|].
    destruct (basePathInput_value w1) as [|c1 s1],
             (basePathInput_value w2) as [|c2 s2]; cbn [truthy] in Hb.
    + now left.
    + right; left. now split.
    + right; right. now split.
    + now left.
  - intros [Hu [Hb | [[H1 H2] | [H1 H2]]]].
    + now rewrite Hu, Hb.
    + now rewrite Hu, H1, H2.
    + now rewrite Hu, H1, H2.
Qed.

Section FurtherPayloads.
Context {E : Engine}.
Variable net : Network.

(** X12.  An ok response whose body parses to a boolean, a number, a string
    or an array is shown as a success: the panel holds the success template
    with the word [undefined] for the site id and for the link, and nothing
    is logged. *)
Theorem memberless_body_shows_undefined (w : World) (r : Response) (data : Value) :
  net (sent_request w) = Normal r ->
  ok r = true ->
  json r = Normal data ->
  memberless data ->
  submit_listener net w =
  (Normal tt,
   mkWorld (repoUrlInput_value w) (basePathInput_value w) false "Deploy"
     "none" "block" (success_html "undefined" "undefined") "success" true
     (fetched w ++ [sent_request w]) (console w)).
Proof.
  intros Hnet Hok Hjson Hm. rewrite listener_run. unfold sent_request in Hnet.
  rewrite (request_ok net _ r _ _ Hnet Hok). cbv zeta. rewrite Hjson.
  destruct data; try contradiction; reflexivity.
Qed.

End FurtherPayloads.

(** ** The listener on a page with elements missing *)

Section HandlesRuns.
Context {E : Engine}.
Variable null_write_message : string -> string.
Variable document : Document.
Variable net : Network.

Lemma all_found_true :
  all_found document = true <->
  repoUrlInput document = true /\ basePathInput document = true /\
  button document = true /\ loading document = true /\ result document = true.
Proof.
  unfold all_found. rewrite !andb_true_iff. tauto.
Qed.

(** With every element found, the listener is the one studied above. *)
Lemma handles_agree (w : World) :
  all_found document = true ->
  handles_submit_listener null_write_message document net w
  = submit_listener net w.
Proof.
  intros H. apply all_found_true in H. destruct H as (Hu & Hb & Hbtn & Hl & Hr).
  unfold handles_submit_listener, handles_start_phase, handles_request_phase,
    handles_catch_block, handles_finally_block.
  rewrite Hu, Hb, Hbtn, Hl, Hr. reflexivity.
Qed.

(** Where the listener stops when an element is missing: at the first
    property access through the [null] handle. *)
Lemma handles_stop (w : World) :
  all_found document = false ->
  handles_submit_listener null_write_message document net w =
  if negb (repoUrlInput document && basePathInput document)
  then (Throw (TypeError (null_read_message "value")), with_defaultPrevented true w)
  else if negb (button document)
  then (Throw (TypeError (null_write_message "disabled")),
        with_defaultPrevented true w)
  else if negb (loading document)
  then (Throw (TypeError (null_read_message "style")),
        with_button_textContent "Deploying..."
          (with_button_disabled true (with_defaultPrevented true w)))
  else (Throw (TypeError (null_read_message "style")),
        with_loading_style_display "block"
          (with_button_textContent "Deploying..."
             (with_button_disabled true (with_defaultPrevented true w)))).
Proof.
  unfold all_found, handles_submit_listener, handles_start_phase.
  destruct (repoUrlInput document); [|reflexivity].
  destruct (basePathInput document); [|reflexivity].
  destruct (button document); [|reflexivity].
  destruct (loading document); [|reflexivity].
  destruct (result document); [discriminate | reflexivity].
Qed.

(** X13.  When the form and the five elements the listener touches are all
    in the document, the script registers a listener, and that listener runs
    exactly as the listener with every element in place. *)
Theorem script_with_all_elements :
  form document = true ->
  all_found document = true ->
  let listener := handles_submit_listener null_write_message document net in
  script null_write_message document net = Normal listener /\
  forall w, listener w = submit_listener net w.
Proof.
  intros Hform Hall listener. split.
  - unfold script. now rewrite Hform.
  - intros w. now apply handles_agree.
Qed.

(** What holds of a run that stopped on a missing element. *)
Lemma handles_stop_effects (w : World) :
  all_found document = false ->
  let out := handles_submit_listener null_write_message document net w in
  exists e, fst out = Throw e /\
            fetched (snd out) = fetched w /\
            console (snd out) = console w /\
            result_style_display (snd out) = result_style_display w /\
            result_innerHTML (snd out) = result_innerHTML w /\
            result_className (snd out) = result_className w.
Proof.
  intros H out. subst out. rewrite (handles_stop w H).
  destruct (negb (repoUrlInput document && basePathInput document));
    [eexists; repeat split|].
  destruct (negb (button document)); [eexists; repeat split|].
  destruct (negb (loading document)); eexists; repeat split.
Qed.

(** X14.  The listener completes exactly when all five elements were found.
    When one is missing it throws, and then no request was sent, nothing was
    logged, and the result panel is as it was. *)
Theorem listener_completes_iff_all_found (w : World) :
  let out := handles_submit_listener null_write_message document net w in
  (fst out = Normal tt <-> all_found document = true) /\
  (all_found document = false ->
   exists e, fst out = Throw e /\
             fetched (snd out) = fetched w /\
             console (snd out) = console w /\
             result_style_display (snd out) = result_style_display w /\
             result_innerHTML (snd out) = result_innerHTML w /\
             result_className (snd out) = result_className w).
Proof.
  intros out. split; [|exact (handles_stop_effects w)].
  destruct (all_found document) eqn:Hall.
  - subst out. rewrite (handles_agree w Hall).
    destruct (listener_result net w) as (failure & html & Hrun & _).
    rewrite Hrun. split; reflexivity.
  - destruct (handles_stop_effects w Hall) as (e & He & _).
    fold out in He. rewrite He. split; discriminate.
Qed.

(** X15.  When an input is missing the listener throws on reading its
    value, before it has touched the page: only the default action of the
    event has been prevented. *)
Theorem missing_input_leaves_page (w : World) :
  repoUrlInput document = false \/ basePathInput document = false ->
  handles_submit_listener null_write_message document net w =
  (Throw (TypeError (null_read_message "value")), with_defaultPrevented true w).
Proof.
  intros H.
  assert (Hin : repoUrlInput document && basePathInput document = false).
  { destruct H as [H|H]; rewrite H; [reflexivity | apply andb_false_r]. }
  rewrite handles_stop.
  - now rewrite Hin.
  - unfold all_found. now rewrite Hin.
Qed.

(** X16.  When the inputs and the button are found but the loading
    indicator or the result panel is not, the listener throws in its start
    phase, which is outside the [try] statement: the finally block does not
    run, no request is sent, and the button stays disabled with the label
    [Deploying...]. *)
Theorem missing_panel_leaves_button_disabled (w : World) :
  repoUrlInput document = true ->
  basePathInput document = true ->
  button document = true ->
  loading document = false \/ result document = false ->
  let out := handles_submit_listener null_write_message document net w in
  fst out = Throw (TypeError (null_read_message "style")) /\
  button_disabled (snd out) = true /\
  button_textContent (snd out) = "Deploying..." /\
  fetched (snd out) = fetched w.
Proof.
  intros Hu Hb Hbtn H out. subst out.
  assert (Hall : all_found document = false).
  { unfold all_found. rewrite Hu, Hb, Hbtn. cbn.
    destruct H as [H|H]; rewrite H; [reflexivity | apply andb_false_r]. }
  rewrite (handles_stop w Hall), Hu, Hb, Hbtn. cbn [andb negb].
  destruct (loading document); cbn [negb]; repeat split.
Qed.

End HandlesRuns.

(** ** The further properties at sample submissions *)

Lemma previous_result_is_overwritten_witness :
  (repoUrlInput_value stale_page = repoUrlInput_value fresh_page /\
   basePathInput_value stale_page = basePathInput_value fresh_page /\
   fetched stale_page = fetched fresh_page /\
   console stale_page = console fresh_page) /\
  result_innerHTML stale_page <> result_innerHTML fresh_page /\
  submit_listener (answers internal_failure) stale_page
  = submit_listener (answers internal_failure) fresh_page.
Proof.
  split; [repeat split|]. split; [discriminate|].
  apply (previous_result_is_overwritten (answers internal_failure)
           stale_page fresh_page); reflexivity.
Defined.

Lemma one_answer_decides_witness :
  answers deployed (sent_request fresh_page) = deploy_only (sent_request fresh_page) /\
  submit_listener (answers deployed) fresh_page
  = submit_listener deploy_only fresh_page.
Proof.
  split; [reflexivity|].
  apply (one_answer_decides (answers deployed) deploy_only fresh_page).
  reflexivity.
Defined.

Lemma failure_reads_status_and_text_witness :
  (ok internal_failure = false /\
   status internal_failure = status internal_failure_json /\
   text internal_failure = text internal_failure_json /\
   json internal_failure <> json internal_failure_json) /\
  submit_listener (answers internal_failure) fresh_page
  = submit_listener (answers internal_failure_json) fresh_page.
Proof.
  split; [repeat split; discriminate|].
  apply (failure_reads_status_and_text (answers internal_failure)
           (answers internal_failure_json) fresh_page
           internal_failure internal_failure_json); reflexivity.
Defined.

Lemma success_reads_slug_and_url_witness :
  (ok deployed = true /\ ok deployed_verbose = true /\
   json deployed <> json deployed_verbose) /\
  submit_listener (answers deployed) fresh_page
  = submit_listener (answers deployed_verbose) fresh_page.
Proof.
  split; [repeat split; discriminate|].
  eapply (success_reads_slug_and_url (answers deployed) (answers deployed_verbose)
            fresh_page deployed deployed_verbose);
    reflexivity.
Defined.

Lemma unreadable_body_shows_read_failure_witness :
  (ok unreadable_failure = false /\
   text unreadable_failure = Throw (TypeError "network error")) /\
  result_innerHTML (snd (submit_listener (answers unreadable_failure) fresh_page))
  = "<strong>Error:</strong> network error".
Proof.
  split; [split; reflexivity|].
  rewrite (unreadable_body_shows_read_failure (answers unreadable_failure)
             fresh_page unreadable_failure (TypeError "network error")
             eq_refl eq_refl eq_refl).
  reflexivity.
Defined.

Lemma memberless_body_shows_undefined_witness :
  (ok string_body = true /\ json string_body = Normal (VString "deployed") /\
   memberless (VString "deployed")) /\
  result_innerHTML (snd (submit_listener (answers string_body) fresh_page))
  = success_html "undefined" "undefined".
Proof.
  split; [repeat split|].
  rewrite (memberless_body_shows_undefined (answers string_body) fresh_page
             string_body (VString "deployed") eq_refl eq_refl eq_refl I).
  reflexivity.
Defined.

Lemma script_with_all_elements_witness :
  (form deploy_document = true /\ all_found deploy_document = true) /\
  script v8_null_write_message deploy_document (answers deployed)
  = Normal (handles_submit_listener v8_null_write_message deploy_document
              (answers deployed)) /\
  handles_submit_listener v8_null_write_message deploy_document
    (answers deployed) fresh_page
  = submit_listener (answers deployed) fresh_page.
Proof.
  split; [split; reflexivity|].
  destruct (script_with_all_elements v8_null_write_message deploy_document
              (answers deployed) eq_refl eq_refl) as [Hs Hl].
  split; [exact Hs | exact (Hl fresh_page)].
Defined.

Lemma missing_input_leaves_page_witness :
  basePathInput no_base_path_document = false /\
  handles_submit_listener v8_null_write_message no_base_path_document
    (answers deployed) stale_page
  = (Throw (TypeError "Cannot read properties of null (reading 'value')"),
     stale_page).
Proof.
  split; [reflexivity|].
  exact (missing_input_leaves_page v8_null_write_message no_base_path_document
           (answers deployed) stale_page (or_intror eq_refl)).
Defined.

Lemma missing_panel_leaves_button_disabled_witness :
  let out := handles_submit_listener v8_null_write_message no_loading_document
               (answers deployed) fresh_page in
  (repoUrlInput no_loading_document = true /\
   basePathInput no_loading_document = true /\
   button no_loading_document = true /\
   loading no_loading_document = false) /\
  fst out = Throw (TypeError "Cannot read properties of null (reading 'style')") /\
  button_disabled (snd out) = true /\
  button_textContent (snd out) = "Deploying..." /\
  fetched (snd out) = [].
Proof.
  split; [repeat split|].
  exact (missing_panel_leaves_button_disabled v8_null_write_message
           no_loading_document (answers deployed) fresh_page
           eq_refl eq_refl eq_refl (or_introl eq_refl)).
Defined.

(** A failed submission followed by one that succeeds: the second ends as a
    first submission with the second answer would, not as the first ended. *)
Example resubmission_after_failure :
  let w1 := snd (submit_listener (answers internal_failure) fresh_page) in
  let w2 := snd (submit_listener (answers deployed) w1) in
  result_className w1 = "error" /\
  result_className w2 = "success" /\
  without_logs w2 = without_logs (snd (submit_listener (answers deployed) fresh_page)) /\
  map body (fetched w2) = map body [sent_request fresh_page; sent_request fresh_page].
Proof. repeat split. Qed.
